(** * A shallow embedding of [trader/api_utils.go] (alGotrade)

    The package is a thin client for the OANDA v3 REST API: it loads
    credentials from [config.json], fetches prices, reshapes the nested
    pricing reply into flat [Price] records, and places a market order.

    Data are modelled as the Go code has them: structs as records, slices
    as lists (indexed writes with stdpp's list insert), Go [int] as [Z],
    strings as [string], and a Go [float32] as a binary float
    [f32m * 2 ^ f32e] (finite values only).  Effects (file reads, HTTP
    round trips, printing, [log.Fatal]) are made explicit with a small
    trace monad: a computation returns the list of events it performed and
    [None] when the process halted. *)

From Stdlib Require Import ZArith String Ascii.
From stdpp Require Import base list strings.

Open Scope string_scope.
Open Scope Z_scope.

(** ** Go values *)

(** A finite [float32] value [f32m * 2 ^ f32e]. *)
Record float32 := F32 { f32m : Z; f32e : Z }.

Definition f32_zero : float32 := F32 0 0.

(** Go's return pair of a pointer and an [error]: [None] stands for [nil]. *)
Definition GoRet (A : Type) : Type := (option A * option string)%type.

(** A result of a library call that either succeeds or fails with an
    [error] (its text). *)
Inductive result (A : Type) : Type :=
| Ok (a : A)
| Err (e : string).
Arguments Ok {A} a.
Arguments Err {A} e.

(** ** Structs of the package *)

Record Credentials := {
  AccountID : string;
  BearerToken : string
}.

(** [struct { Price float32 `json:"price,string"` }] *)
Record RawLevel := { LevelPrice : float32 }.

(** The element type of [RawPricingResponse.Prices]. *)
Record RawPrice := {
  RawInstrument : string;
  RawTradeable : bool;
  Bids : list RawLevel;
  Asks : list RawLevel
}.

Record RawPricingResponse := {
  RawTime : string;
  RawPrices : list RawPrice
}.

Record Price := {
  Instrument : string;
  Tradeable : bool;
  Bid : float32;
  Ask : float32
}.

Record PricingResponse := {
  Time : string;
  Prices : list Price
}.

Record MarketOrder := {
  Units : string;
  OrderInstrument : string;
  PriceBound : string;
  TimeInForce : string;
  Type_ : string;  (* Go field [Type] *)
  PositionFill : string
}.

Record MarketOrderRequest := { Order : MarketOrder }.

Record TradeOpened := { TradeID : string; TOUnits : string }.

Record OrderCreateTransaction := {
  OCAccountID : string; OCBatchID : string; OCID : string;
  OCInstrument : string; OCPositionFill : string; OCReason : string;
  OCTime : string; OCTimeInForce : string; OCType : string;
  OCUnits : string; OCUserID : Z
}.

Record OrderFillTransaction := {
  OFAccountBalance : string; OFAccountID : string; OFBatchID : string;
  OFFinancing : string; OFID : string; OFInstrument : string;
  OFOrderID : string; OFPl : string; OFPrice : string; OFReason : string;
  OFTime : string; OFTradeOpened : TradeOpened; OFType : string;
  OFUnits : string; OFUserID : Z
}.

Record OrderResponse := {
  LastTransactionID : string;
  OrderCreate : OrderCreateTransaction;
  OrderFill : OrderFillTransaction;
  RelatedTransactionIDs : list string
}.

(** ** Library string helpers *)

(** [strings.Join] *)
Fixpoint join (sep : string) (xs : list string) : string :=
  match xs with
  | [] => ""
  | [x] => x
  | x :: xs' => x ++ sep ++ join sep xs'
  end.

(** [strings.Replace(s, old, new, 1)]: the first occurrence only. *)
Definition replace1 (s old new : string) : string :=
  match String.index 0 old s with
  | Some i => substring 0 i s ++ new ++
              substring (i + String.length old) (String.length s) s
  | None => s
  end.

Definition digit (d : Z) : ascii := ascii_of_nat (48 + Z.to_nat d).

(** Decimal digits of a non-negative integer. *)
Fixpoint digits_aux (fuel : nat) (n : Z) (acc : string) : string :=
  match fuel with
  | O => acc
  | S f =>
      let acc' := String (digit (n mod 10)) acc in
      if n <? 10 then acc' else digits_aux f (n / 10) acc'
  end.

Definition digits (n : Z) : string :=
  digits_aux (S (Z.to_nat (Z.log2 n))) n "".

(** [fmt.Sprintf("%d", n)] *)
Definition fmt_d (n : Z) : string :=
  if n <? 0 then "-" ++ digits (- n) else digits n.

(** ** [parseRawResponse] *)

Definition errNoBid : string := "No bid prices recieved.".
Definition errNoAsk : string := "No ask prices recieved.".

(** The [for i, rawPrice := range rawResponse.Prices] loop: [acc] is the
    slice [response.Prices], written at index [i]; an empty side returns
    from the function with its error. *)
Fixpoint parseLoop (i : nat) (rs : list RawPrice) (acc : list Price)
  : result (list Price) :=
  match rs with
  | [] => Ok acc
  | rawPrice :: rs' =>
      let price := {| Instrument := RawInstrument rawPrice;
                      Tradeable := RawTradeable rawPrice;
                      Bid := f32_zero; Ask := f32_zero |} in
      match Bids rawPrice with
      | [] => Err errNoBid
      | b :: _ =>
          let price := {| Instrument := Instrument price;
                          Tradeable := Tradeable price;
                          Bid := LevelPrice b; Ask := Ask price |} in
          match Asks rawPrice with
          | [] => Err errNoAsk
          | a :: _ =>
              let price := {| Instrument := Instrument price;
                              Tradeable := Tradeable price;
                              Bid := Bid price; Ask := LevelPrice a |} in
              parseLoop (S i) rs' (<[i := price]> acc)
          end
      end
  end.

(** The zero value of [Price], as [make([]Price, n)] fills the slice. *)
Definition zeroPrice : Price :=
  {| Instrument := ""; Tradeable := false; Bid := f32_zero; Ask := f32_zero |}.

Definition parseRawResponse (raw : RawPricingResponse) : GoRet PricingResponse :=
  let n := length (RawPrices raw) in
  match parseLoop 0 (RawPrices raw) (replicate n zeroPrice) with
  | Ok ps => (Some {| Time := RawTime raw; Prices := ps |}, None)
  | Err e => (None, Some e)
  end.

(** ** Numeric formatting of [placeMarketOrder] *)

(** [a / b] rounded to the nearest integer, ties to even ([a >= 0],
    [b > 0]). *)
Definition round_half_even (a b : Z) : Z :=
  let q := a / b in
  let r := a mod b in
  if 2 * r <? b then q
  else if b <? 2 * r then q + 1
  else if Z.even q then q else q + 1.

(** The float32 nearest to the positive rational [num / den] (ties to
    even), for values in the normal range: this is how the compiler turns
    an untyped constant such as [1.2] into a [float32]. *)
Definition round_f32 (num den : Z) : float32 :=
  let e0 := Z.log2 num - Z.log2 den - 23 in
  let scaled e := if e <=? 0 then (num * 2 ^ (- e), den)
                  else (num, den * 2 ^ e) in
  let e := if fst (scaled e0) <? 2 ^ 23 * snd (scaled e0) then e0 - 1 else e0 in
  let m := round_half_even (fst (scaled e)) (snd (scaled e)) in
  if m =? 2 ^ 24 then F32 (2 ^ 23) (e + 1) else F32 m e.

Fixpoint zeros (n : nat) : string :=
  match n with
  | O => ""
  | S n' => "0" ++ zeros n'
  end.

(** [fmt.Sprintf("%.5f", x)] for a [float32] [x]: the exact binary value
    rounded to five decimals, ties to even, as [strconv] does. *)
Definition fmt_f5 (x : float32) : string :=
  let m := Z.abs (f32m x) in
  let n := if 0 <=? f32e x then m * 2 ^ f32e x * 10 ^ 5
           else round_half_even (m * 10 ^ 5) (2 ^ (- f32e x)) in
  let frac := digits (n mod 10 ^ 5) in
  (if f32m x <? 0 then "-" else "") ++ digits (n / 10 ^ 5) ++ "." ++
  zeros (5 - String.length frac) ++ frac.

(** The [orderRequest] literal built by [placeMarketOrder]. *)
Definition mkOrderRequest (units : Z) (instrument : string) (priceBound : float32)
  : MarketOrderRequest :=
  {| Order := {| Units := fmt_d units;
                 OrderInstrument := instrument;
                 PriceBound := fmt_f5 priceBound;
                 TimeInForce := "FOK";
                 Type_ := "MARKET";
                 PositionFill := "DEFAULT" |} |}.

(** ** Effects *)

Definition baseURL : string := "https://api-fxpractice.oanda.com".
Definition pricingEndpoint : string := "/v3/accounts/{accountID}/pricing".
Definition orderEndpoint : string := "/v3/accounts/{accountID}/orders".

(** An outgoing request: [Query] is [url.Values] (sent through
    [q.Encode()], which the server decodes back), [Body] the value passed
    to [json.Marshal]. *)
Record Request := {
  Method : string;
  URL : string;
  Header : list (string * string);
  Query : list (string * list string);
  Body : option MarketOrderRequest
}.

(** A reply of [client.Do]: its status and the outcome of
    [io.ReadAll(resp.Body)]. *)
Record Response := {
  StatusCode : Z;
  RespBody : result string
}.

(** Observable effects of the process.  [EvCallPlaceMarketOrder] is a
    ghost event that marks each invocation of [placeMarketOrder] with its
    arguments. *)
Inductive Event :=
| EvOpenConfig
| EvHttp (r : Request)
| EvStdout (s : string)
| EvDumpPrices (p : option PricingResponse)
| EvDumpOrder (o : option OrderResponse)
| EvLog (s : string)
| EvFatal (s : string)
| EvPanic (s : string)
| EvCallPlaceMarketOrder (units : Z) (instrument : string) (priceBound : float32).

(** The trace monad: the events performed, and [None] when the process
    halted ([log.Fatal], a panic). *)
Definition M (A : Type) : Type := (list Event * option A)%type.

#[global] Instance M_ret : MRet M := fun A a => ([], Some a).
#[global] Instance M_bind : MBind M := fun A B f m =>
  match m with
  | (t, None) => (t, None)
  | (t, Some a) => let '(t', r) := f a in ((t ++ t')%list, r)
  end.

Definition emit (ev : Event) : M unit := ([ev], Some ()).
Definition halt {A} (ev : Event) : M A := ([ev], None).

(** [url.Values.Add] *)
Fixpoint values_add (q : list (string * list string)) (k v : string)
  : list (string * list string) :=
  match q with
  | [] => [(k, [v])]
  | (k', vs) :: q' =>
      if String.eqb k k' then (k', (vs ++ [v])%list) :: q'
      else (k', vs) :: values_add q' k v
  end.

(** [url.Values.Get]-style lookup of all values of a key. *)
Fixpoint values_lookup (q : list (string * list string)) (k : string)
  : option (list string) :=
  match q with
  | [] => None
  | (k', vs) :: q' => if String.eqb k k' then Some vs else values_lookup q' k
  end.

Definition statusErrPrices (code : Z) : string :=
  fmt_d code ++ " response code received, Prices API request not working as expected".

Definition statusErrOrder (code : Z) (body : string) : string :=
  "unexpected status code: " ++ fmt_d code ++ ", body: " ++ body.

Definition pricingURL (creds : Credentials) : string :=
  replace1 (baseURL ++ pricingEndpoint) "{accountID}" (AccountID creds).

Definition orderURL (creds : Credentials) : string :=
  replace1 (baseURL ++ orderEndpoint) "{accountID}" (AccountID creds).

(** The GET request of [getPrices], built on the query [q0] of the parsed
    URL. *)
Definition pricingRequest (creds : Credentials) (q0 : list (string * list string))
    (instruments : list string) : Request :=
  let q := values_add q0 "instruments" (join "," instruments) in
  {| Method := "GET"; URL := pricingURL creds;
     Header := [("Authorization", "Bearer " ++ BearerToken creds)];
     Query := q; Body := None |}.

(** The POST request of [placeMarketOrder]. *)
Definition orderHttpRequest (creds : Credentials) (q0 : list (string * list string))
    (orderRequest : MarketOrderRequest) : Request :=
  {| Method := "POST"; URL := orderURL creds;
     Header := [("Content-Type", "application/json");
                ("Authorization", "Bearer " ++ BearerToken creds)];
     Query := q0; Body := Some orderRequest |}.

Definition driverInstruments : list string := ["GBP_USD"; "EUR_GBP"; "GBP_JPY"].
Definition msgNotTradeable : string :=
  "Error executing market order! Instrument currently not tradeable.".

Section Program.

(** The outside world: the contents of [config.json] as [getCreds] opens
    and decodes it, the URL parse of [http.NewRequest] (its error, or the
    query of the parsed URL), the HTTP client, and [json.Unmarshal] on the
    two reply shapes. *)
Variable configFile : result Credentials.
Variable parseURL : string -> result (list (string * list string)).
Variable roundTrip : Request -> result Response.
Variable unmarshalPricing : string -> result RawPricingResponse.
Variable unmarshalOrder : string -> result OrderResponse.

Definition getCreds : M Credentials :=
  _ ← emit EvOpenConfig;
  match configFile with
  | Ok creds => mret creds
  | Err e => halt (EvFatal e)
  end.

(** [client.Do(req)] *)
Definition send (req : Request) : M (result Response) :=
  _ ← emit (EvHttp req);
  mret (roundTrip req).

Definition getPrices (instruments : list string) : M (GoRet PricingResponse) :=
  creds ← getCreds;
  let url := pricingURL creds in
  match parseURL url with
  | Err e => mret (None, Some e)
  | Ok q0 =>
      let req := pricingRequest creds q0 instruments in
      r ← send req;
      match r with
      | Err e => mret (None, Some e)
      | Ok resp =>
          match RespBody resp with
          | Err e => mret (None, Some e)
          | Ok body =>
              if negb (StatusCode resp =? 200) then
                mret (None, Some (statusErrPrices (StatusCode resp)))
              else
                match unmarshalPricing body with
                | Err e => mret (None, Some e)
                | Ok rawResponse =>
                    let '(response, err) := parseRawResponse rawResponse in
                    match err with
                    | Some e => mret (None, Some e)
                    | None => mret (response, None)
                    end
                end
          end
      end
  end.

(** [json.Marshal] of a struct of strings cannot fail, so its error branch
    is not modelled. *)
Definition placeMarketOrder (units : Z) (instrument : string) (priceBound : float32)
  : M (GoRet OrderResponse) :=
  _ ← emit (EvCallPlaceMarketOrder units instrument priceBound);
  creds ← getCreds;
  let url := orderURL creds in
  let orderRequest := mkOrderRequest units instrument priceBound in
  match parseURL url with
  | Err e => mret (None, Some e)
  | Ok q0 =>
      let req := orderHttpRequest creds q0 orderRequest in
      r ← send req;
      match r with
      | Err e => mret (None, Some e)
      | Ok resp =>
          match RespBody resp with
          | Err e => mret (None, Some e)
          | Ok body =>
              if negb (StatusCode resp =? 201) then
                mret (None, Some (statusErrOrder (StatusCode resp) body))
              else
                match unmarshalOrder body with
                | Err e => mret (None, Some e)
                | Ok orderResponse => mret (Some orderResponse, None)
                end
          end
      end
  end.

Definition EntryPoint : M unit :=
  '(pricesResponse, err) ← getPrices driverInstruments;
  match err with
  | Some e => halt (EvFatal ("Error retrieving prices: " ++ e))
  | None =>
      _ ← emit (EvStdout "Prices retrieved successfully.");
      _ ← emit (EvDumpPrices pricesResponse);
      match pricesResponse with
      | None => halt (EvPanic "invalid memory address or nil pointer dereference")
      | Some pr =>
          match Prices pr with
          | [] => halt (EvPanic "index out of range [0] with length 0")
          | p0 :: _ =>
              if Tradeable p0 then
                '(orderResponse, oerr) ← placeMarketOrder 1 "GBP_USD" (Ask p0);
                match oerr with
                | Some e => emit (EvLog ("Error placing market order: " ++ e))
                | None =>
                    _ ← emit (EvStdout "Market order placed successfully.");
                    emit (EvDumpOrder orderResponse)
                end
              else emit (EvStdout msgNotTradeable)
          end
      end
  end.

End Program.

(** ** Predicates and sample data for the properties *)

Definition sides_nonempty (rp : RawPrice) : Prop := Bids rp ≠ [] ∧ Asks rp ≠ [].

(** The record the loop body writes for an instrument with both sides. *)
Definition best_levels (rp : RawPrice) : Price :=
  {| Instrument := RawInstrument rp; Tradeable := RawTradeable rp;
     Bid := match Bids rp with b :: _ => LevelPrice b | [] => f32_zero end;
     Ask := match Asks rp with a :: _ => LevelPrice a | [] => f32_zero end |}.

Definition goodEntry : RawPrice :=
  {| RawInstrument := "GBP_USD"; RawTradeable := true;
     Bids := [{| LevelPrice := F32 10066330 (-23) |}];
     Asks := [{| LevelPrice := F32 10066339 (-23) |}] |}.

Definition eurEntry : RawPrice :=
  {| RawInstrument := "EUR_GBP"; RawTradeable := true;
     Bids := [{| LevelPrice := F32 7 (-3) |}; {| LevelPrice := F32 6 (-3) |}];
     Asks := [{| LevelPrice := F32 8 (-3) |}] |}.

Definition closedEntry : RawPrice :=
  {| RawInstrument := "GBP_USD"; RawTradeable := false;
     Bids := [{| LevelPrice := F32 10066330 (-23) |}];
     Asks := [{| LevelPrice := F32 10066339 (-23) |}] |}.

(** A pricing reply with bid and ask levels for every instrument. *)
Definition sampleRaw : RawPricingResponse :=
  {| RawTime := "2024-01-01T00:00:00Z"; RawPrices := [goodEntry; eurEntry] |}.

(** Its reshaped form. *)
Definition samplePrices : PricingResponse :=
  {| Time := RawTime sampleRaw; Prices := map best_levels (RawPrices sampleRaw) |}.

(** A pricing reply whose first instrument is not tradeable. *)
Definition sampleRawClosed : RawPricingResponse :=
  {| RawTime := "2024-01-01T00:00:00Z"; RawPrices := [closedEntry; eurEntry] |}.

Definition samplePricesClosed : PricingResponse :=
  {| Time := RawTime sampleRawClosed;
     Prices := map best_levels (RawPrices sampleRawClosed) |}.

(** A pricing reply whose first instrument is tradeable [EUR_GBP]. *)
Definition sampleRawEUR : RawPricingResponse :=
  {| RawTime := "2024-01-01T00:00:00Z"; RawPrices := [eurEntry] |}.

(** A pricing reply listing no instrument. *)
Definition sampleRawEmpty : RawPricingResponse :=
  {| RawTime := "2024-01-01T00:00:00Z"; RawPrices := [] |}.

Definition emptyEntry : RawPrice :=
  {| RawInstrument := "EUR_GBP"; RawTradeable := true; Bids := []; Asks := [] |}.

(** A reply whose second instrument has no bid and no ask level. *)
Definition sampleRawBad : RawPricingResponse :=
  {| RawTime := "2024-01-01T00:00:00Z"; RawPrices := [goodEntry; emptyEntry] |}.

(** An error text carries [needle] when [needle] occurs in it. *)
Definition contains (needle s : string) : Prop := ∃ a b, s = a ++ needle ++ b.

Fixpoint containsb (needle s : string) : bool :=
  String.prefix needle s ||
  match s with
  | EmptyString => false
  | String _ s' => containsb needle s'
  end.

(** The invocations of [placeMarketOrder] recorded in a trace. *)
Fixpoint placeCalls (t : list Event) : list (Z * string * float32) :=
  match t with
  | [] => []
  | EvCallPlaceMarketOrder u i pb :: t' => (u, i, pb) :: placeCalls t'
  | _ :: t' => placeCalls t'
  end.

(** The bodies of the HTTP requests sent in a trace. *)
Fixpoint httpBodies (t : list Event) : list (option MarketOrderRequest) :=
  match t with
  | [] => []
  | EvHttp r :: t' => Body r :: httpBodies t'
  | _ :: t' => httpBodies t'
  end.

(** A Go return pair holding exactly one of a result and an error. *)
Definition one_of {A} (r : GoRet A) : Prop :=
  match r with
  | (Some _, None) | (None, Some _) => True
  | _ => False
  end.

(** The HTTP requests sent in a trace. *)
Fixpoint httpRequests (t : list Event) : list Request :=
  match t with
  | [] => []
  | EvHttp r :: t' => r :: httpRequests t'
  | _ :: t' => httpRequests t'
  end.

(** A raw record cut down to its first bid and first ask level. *)
Definition truncate_levels (rp : RawPrice) : RawPrice :=
  {| RawInstrument := RawInstrument rp; RawTradeable := RawTradeable rp;
     Bids := firstn 1 (Bids rp); Asks := firstn 1 (Asks rp) |}.

(** The number of times a trace opens [config.json]. *)
Fixpoint configReads (t : list Event) : nat :=
  match t with
  | [] => O
  | EvOpenConfig :: t' => S (configReads t')
  | _ :: t' => configReads t'
  end.

Definition sampleCreds : Credentials :=
  {| AccountID := "101-004-1234567-001"; BearerToken := "token" |}.

Definition sampleTradeOpened : TradeOpened := {| TradeID := "7"; TOUnits := "1" |}.

Definition sampleOrderResponse : OrderResponse :=
  {| LastTransactionID := "7";
     OrderCreate := {| OCAccountID := "101-004-1234567-001"; OCBatchID := "6";
                       OCID := "6"; OCInstrument := "GBP_USD";
                       OCPositionFill := "DEFAULT"; OCReason := "CLIENT_ORDER";
                       OCTime := "2024-01-01T00:00:01Z"; OCTimeInForce := "FOK";
                       OCType := "MARKET_ORDER"; OCUnits := "1"; OCUserID := 1 |};
     OrderFill := {| OFAccountBalance := "100000.0000"; OFAccountID := "101-004-1234567-001";
                     OFBatchID := "6"; OFFinancing := "0.0000"; OFID := "7";
                     OFInstrument := "GBP_USD"; OFOrderID := "6"; OFPl := "0.0000";
                     OFPrice := "1.20000"; OFReason := "MARKET_ORDER";
                     OFTime := "2024-01-01T00:00:01Z"; OFTradeOpened := sampleTradeOpened;
                     OFType := "ORDER_FILL"; OFUnits := "1"; OFUserID := 1 |};
     RelatedTransactionIDs := ["6"; "7"] |}.

(** A URL parse that always succeeds, with an empty query. *)
Definition sampleParseURL (url : string) : result (list (string * list string)) := Ok [].

(** A server answering every GET with 200 and every POST with 201. *)
Definition sampleRoundTrip (r : Request) : result Response :=
  Ok {| StatusCode := if String.eqb (Method r) "GET" then 200 else 201;
        RespBody := Ok "{}" |}.

(** A server answering with status [code] whose body cannot be read. *)
Definition brokenRoundTrip (code : Z) (r : Request) : result Response :=
  Ok {| StatusCode := code; RespBody := Err "unexpected EOF" |}.

(** A server accepting the pricing GET with 200 and refusing the order
    POST with 400. *)
Definition rejectingRoundTrip (r : Request) : result Response :=
  Ok {| StatusCode := if String.eqb (Method r) "GET" then 200 else 400;
        RespBody := Ok "rejected" |}.

(** A server answering with status [code] and a readable body. *)
Definition statusRoundTrip (code : Z) (r : Request) : result Response :=
  Ok {| StatusCode := code; RespBody := Ok "{}" |}.

(** * Properties *)

Open Scope list_scope.

(** ** Reshaping of the pricing reply *)

Lemma parseLoop_ok (rs : list RawPrice) :
  ∀ (i : nat) (acc : list Price),
    Forall sides_nonempty rs → (i + length rs = length acc)%nat →
    parseLoop i rs acc = Ok (take i acc ++ map best_levels rs).
Proof.
  induction rs as [|rp rs IH]; intros i acc Hok Hlen; simpl.
  - simpl in Hlen. rewrite Nat.add_0_r in Hlen. subst i.
    rewrite firstn_all, app_nil_r. reflexivity.
  - apply Forall_cons in Hok as [[Hb Ha] Hok].
    destruct (Bids rp) as [|b bs] eqn:EB; [congruence|].
    destruct (Asks rp) as [|a as_] eqn:EA; [congruence|].
    simpl in Hlen.
    rewrite IH by (first [exact Hok | rewrite length_insert; lia]).
    assert (Hi : (i < length acc)%nat) by lia.
    rewrite (take_S_r (<[i:=_]> acc) i (best_levels rp)).
    + rewrite take_insert_ge by lia. rewrite <- app_assoc. reflexivity.
    + unfold best_levels. rewrite EB, EA. by apply list_lookup_insert_eq.
Qed.

Lemma parseLoop_err (rs : list RawPrice) :
  ∀ (i : nat) (acc : list Price),
    Exists (λ rp, Bids rp = [] ∨ Asks rp = []) rs →
    ∃ e, parseLoop i rs acc = Err e.
Proof.
  induction rs as [|rp rs IH]; intros i acc Hex; [inversion Hex|].
  simpl. destruct (Bids rp) as [|b bs] eqn:EB; [eauto|].
  destruct (Asks rp) as [|a as_] eqn:EA; [eauto|].
  apply Exists_cons in Hex as [[H|H]|H]; [congruence|congruence|].
  apply IH; exact H.
Qed.

Lemma parseLoop_skip (pre rs : list RawPrice) :
  ∀ (i : nat) (acc : list Price),
    Forall sides_nonempty pre →
    ∃ acc', parseLoop i (pre ++ rs) acc = parseLoop (i + length pre) rs acc'.
Proof.
  induction pre as [|rp pre IH]; intros i acc Hok; simpl.
  - exists acc. by rewrite Nat.add_0_r.
  - apply Forall_cons in Hok as [[Hb Ha] Hok].
    destruct (Bids rp) as [|b bs]; [congruence|].
    destruct (Asks rp) as [|a as_]; [congruence|].
    match goal with
    | |- ∃ _, parseLoop (S i) (pre ++ rs) ?acc1 = _ =>
        destruct (IH (S i) acc1 Hok) as [acc' ->]
    end.
    exists acc'. f_equal. lia.
Qed.

Lemma parseLoop_errors (rs : list RawPrice) :
  ∀ (i : nat) (acc : list Price) e,
    parseLoop i rs acc = Err e → e = errNoBid ∨ e = errNoAsk.
Proof.
  induction rs as [|rp rs IH]; intros i acc e H; simpl in H; [discriminate|].
  destruct (Bids rp); [injection H; auto|].
  destruct (Asks rp); [injection H; auto|].
  eapply IH; exact H.
Qed.

(** C1: when every instrument has a bid and an ask level, reshaping
    succeeds with one record per input record, in order, holding the first
    bid and ask prices and the copied instrument, tradeable flag and time. *)
Theorem parseRawResponse_best_levels (raw : RawPricingResponse) :
  Forall sides_nonempty (RawPrices raw) →
  ∃ ps : list Price,
    parseRawResponse raw = (Some {| Time := RawTime raw; Prices := ps |}, None) ∧
    length ps = length (RawPrices raw) ∧
    ∀ (i : nat) (rp : RawPrice), RawPrices raw !! i = Some rp →
      ∃ b bs a as_, Bids rp = b :: bs ∧ Asks rp = a :: as_ ∧
        ps !! i = Some {| Instrument := RawInstrument rp;
                          Tradeable := RawTradeable rp;
                          Bid := LevelPrice b; Ask := LevelPrice a |}.
Proof.
  intros Hok. exists (map best_levels (RawPrices raw)). split; [|split].
  - unfold parseRawResponse.
    rewrite parseLoop_ok by (first [exact Hok | rewrite length_replicate; lia]).
    reflexivity.
  - apply length_map.
  - intros i rp Hi.
    pose proof (proj1 (Forall_lookup _ _) Hok i rp Hi) as [Hb Ha].
    destruct (Bids rp) as [|b bs] eqn:EB; [congruence|].
    destruct (Asks rp) as [|a as_] eqn:EA; [congruence|].
    exists b, bs, a, as_. split; [reflexivity|]. split; [reflexivity|].
    rewrite list_lookup_fmap, Hi. simpl. unfold best_levels. by rewrite EB, EA.
Qed.

Lemma parseRawResponse_best_levels_witness :
  Forall sides_nonempty (RawPrices sampleRaw) ∧
  ∃ ps : list Price,
    parseRawResponse sampleRaw = (Some {| Time := RawTime sampleRaw; Prices := ps |}, None) ∧
    length ps = length (RawPrices sampleRaw) ∧
    ∀ (i : nat) (rp : RawPrice), RawPrices sampleRaw !! i = Some rp →
      ∃ b bs a as_, Bids rp = b :: bs ∧ Asks rp = a :: as_ ∧
        ps !! i = Some {| Instrument := RawInstrument rp;
                          Tradeable := RawTradeable rp;
                          Bid := LevelPrice b; Ask := LevelPrice a |}.
Proof.
  split; [repeat constructor; discriminate|].
  apply parseRawResponse_best_levels. repeat constructor; discriminate.
Defined.

(** C2: when some instrument has no bid or no ask level, reshaping fails
    and returns a nil response: no partial result. *)
Theorem parseRawResponse_no_partial (raw : RawPricingResponse) :
  Exists (λ rp, Bids rp = [] ∨ Asks rp = []) (RawPrices raw) →
  ∃ e, parseRawResponse raw = (None, Some e).
Proof.
  intros Hex. unfold parseRawResponse.
  destruct (parseLoop_err (RawPrices raw) 0
              (replicate (length (RawPrices raw)) zeroPrice) Hex) as [e He].
  rewrite He. eauto.
Qed.

Lemma parseRawResponse_no_partial_witness :
  Exists (λ rp, Bids rp = [] ∨ Asks rp = []) (RawPrices sampleRawBad) ∧
  ∃ e, parseRawResponse sampleRawBad = (None, Some e).
Proof.
  split; [right; left; left; reflexivity|].
  apply parseRawResponse_no_partial. right; left; left; reflexivity.
Defined.

(** C10: instruments are examined in order and the first one with an
    empty side aborts the call; bids are checked before asks, so an empty
    bid side yields "No bid prices recieved." even when the asks are empty
    too; the error text is one of two constants and names no instrument. *)
Theorem parseRawResponse_first_failure (raw : RawPricingResponse)
    (pre : list RawPrice) (rp : RawPrice) (post : list RawPrice) :
  RawPrices raw = pre ++ rp :: post →
  Forall sides_nonempty pre →
  (Bids rp = [] → parseRawResponse raw = (None, Some errNoBid)) ∧
  (Bids rp ≠ [] → Asks rp = [] → parseRawResponse raw = (None, Some errNoAsk)) ∧
  (∀ e, snd (parseRawResponse raw) = Some e → e = errNoBid ∨ e = errNoAsk).
Proof.
  intros Hsplit Hok. unfold parseRawResponse. rewrite Hsplit.
  destruct (parseLoop_skip pre (rp :: post) 0
              (replicate (length (pre ++ rp :: post)) zeroPrice) Hok)
    as [acc' ->].
  simpl. split; [|split].
  - intros Hb. rewrite Hb. reflexivity.
  - intros Hb Ha. destruct (Bids rp); [congruence|]. rewrite Ha. reflexivity.
  - intros e. destruct (Bids rp) as [|b bs]; [simpl; intros [= <-]; auto|].
    destruct (Asks rp) as [|a as_]; [simpl; intros [= <-]; auto|].
    destruct (parseLoop _ post _) as [ps|e'] eqn:Hl; simpl; [discriminate|].
    intros [= <-]. eapply parseLoop_errors; exact Hl.
Qed.

Lemma parseRawResponse_first_failure_witness :
  (RawPrices sampleRawBad = [goodEntry] ++ emptyEntry :: [] ∧
   Forall sides_nonempty [goodEntry]) ∧
  ((Bids emptyEntry = [] → parseRawResponse sampleRawBad = (None, Some errNoBid)) ∧
   (Bids emptyEntry ≠ [] → Asks emptyEntry = [] →
      parseRawResponse sampleRawBad = (None, Some errNoAsk)) ∧
   (∀ e, snd (parseRawResponse sampleRawBad) = Some e → e = errNoBid ∨ e = errNoAsk)).
Proof.
  split; [split; [reflexivity | repeat constructor; discriminate]|].
  apply (parseRawResponse_first_failure sampleRawBad [goodEntry] emptyEntry []).
  - reflexivity.
  - repeat constructor; discriminate.
Defined.

(** ** Runs of the program in an arbitrary world *)

Lemma placeCalls_app (t1 t2 : list Event) :
  placeCalls (t1 ++ t2) = placeCalls t1 ++ placeCalls t2.
Proof. induction t1 as [|[] t1 IH]; simpl; rewrite ?IH; reflexivity. Qed.

Lemma configReads_app (t1 t2 : list Event) :
  configReads (t1 ++ t2) = (configReads t1 + configReads t2)%nat.
Proof. induction t1 as [|[] t1 IH]; simpl; rewrite ?IH; reflexivity. Qed.

Lemma httpBodies_app (t1 t2 : list Event) :
  httpBodies (t1 ++ t2) = httpBodies t1 ++ httpBodies t2.
Proof. induction t1 as [|[] t1 IH]; simpl; rewrite ?IH; reflexivity. Qed.

Lemma values_lookup_add (q : list (string * list string)) (k v : string) :
  values_lookup q k = None → values_lookup (values_add q k v) k = Some [v].
Proof.
  induction q as [|[k' vs] q IH]; cbn; [by rewrite String.eqb_refl|].
  destruct (String.eqb k k') eqn:E; [discriminate|]. cbn. rewrite E. exact IH.
Qed.

Lemma prefix_app (n b : string) : String.prefix n (n ++ b)%string = true.
Proof.
  induction n as [|c n IH]; simpl; [destruct b; reflexivity|].
  destruct (ascii_dec c c) as [_|H]; [exact IH | congruence].
Qed.

Lemma containsb_unfold (n s : string) :
  containsb n s = String.prefix n s ||
                  match s with
                  | EmptyString => false
                  | String _ s' => containsb n s'
                  end.
Proof. destruct s; reflexivity. Qed.

Lemma contains_containsb (n s : string) : contains n s → containsb n s = true.
Proof.
  intros (a & b & ->). induction a as [|c a IH].
  - rewrite containsb_unfold.
    change ("" ++ n ++ b)%string with (n ++ b)%string. rewrite prefix_app. reflexivity.
  - rewrite containsb_unfold.
    change (String c a ++ n ++ b)%string with (String c (a ++ n ++ b))%string.
    cbv iota beta. rewrite IH. apply orb_true_r.
Qed.

Lemma contains_prefix (n b : string) : contains n (n ++ b)%string.
Proof. exists "", b. reflexivity. Qed.

(** Case analysis on every [match] of a monadic run, innermost
    scrutinee first. *)
Ltac run_cases :=
  repeat (cbn -[fmt_d fmt_f5] in *; match goal with
                    | |- context [match ?x with _ => _ end] =>
                        lazymatch x with
                        | context [match _ with _ => _ end] => fail
                        | _ => destruct x eqn:?
                        end
                    end).

Lemma bind_fst {A B} (m : M A) (f : A → M B) :
  fst (m ≫= f) = fst m ++ match snd m with Some a => fst (f a) | None => [] end.
Proof.
  destruct m as [t [a|]]; cbn; [destruct (f a); reflexivity | by rewrite app_nil_r].
Qed.

Lemma bind_snd {A B} (m : M A) (f : A → M B) :
  snd (m ≫= f) = match snd m with Some a => snd (f a) | None => None end.
Proof. destruct m as [t [a|]]; cbn; [destruct (f a); reflexivity | reflexivity]. Qed.

Lemma httpRequests_app (t1 t2 : list Event) :
  httpRequests (t1 ++ t2) = httpRequests t1 ++ httpRequests t2.
Proof. induction t1 as [|[] t1 IH]; simpl; rewrite ?IH; reflexivity. Qed.

Lemma parseRawResponse_one_of (raw : RawPricingResponse) : one_of (parseRawResponse raw).
Proof. unfold parseRawResponse. by destruct parseLoop. Qed.

Lemma parseLoop_truncate (rs : list RawPrice) :
  ∀ (i : nat) (acc : list Price),
    parseLoop i (map truncate_levels rs) acc = parseLoop i rs acc.
Proof.
  induction rs as [|rp rs IH]; intros i acc; [reflexivity|]. cbn.
  destruct (Bids rp) as [|b bs]; [reflexivity|].
  destruct (Asks rp) as [|a as_]; [reflexivity|]. apply IH.
Qed.

(** X: only the first bid and ask level of each record matter: cutting
    every record down to its first levels does not change the outcome of
    [parseRawResponse]. *)
Theorem parseRawResponse_first_levels_only (raw : RawPricingResponse) :
  parseRawResponse {| RawTime := RawTime raw;
                      RawPrices := map truncate_levels (RawPrices raw) |}
  = parseRawResponse raw.
Proof.
  unfold parseRawResponse. cbn [RawPrices RawTime].
  rewrite length_map, parseLoop_truncate. reflexivity.
Qed.

(** X: a reply listing no instrument is not an error: [parseRawResponse]
    returns a response with the reply's time and an empty price list. *)
Theorem parseRawResponse_empty (time : string) :
  parseRawResponse {| RawTime := time; RawPrices := [] |}
  = (Some {| Time := time; Prices := [] |}, None).
Proof. reflexivity. Qed.

(** X: the account identifier is spliced into the two endpoint templates. *)
Theorem endpoint_urls (creds : Credentials) :
  pricingURL creds =
    ("https://api-fxpractice.oanda.com/v3/accounts/" ++ AccountID creds ++ "/pricing")%string ∧
  orderURL creds =
    ("https://api-fxpractice.oanda.com/v3/accounts/" ++ AccountID creds ++ "/orders")%string.
Proof. split; reflexivity. Qed.

Section Runs.

Context (configFile : result Credentials)
        (parseURL : string → result (list (string * list string)))
        (roundTrip : Request → result Response)
        (unmarshalPricing : string → result RawPricingResponse)
        (unmarshalOrder : string → result OrderResponse).

(** Closes a branch of an HTTP round trip: identifies the reply and its
    body with the assumed ones and discards the branches of the other
    status. *)
Ltac status_finish :=
  match goal with Hrt : roundTrip _ = Ok _ |- _ => rewrite Hrt in * end;
  simplify_eq;
  match goal with Hb : RespBody _ = _ |- _ => rewrite Hb in * end;
  simplify_eq; cbn;
  try match goal with
      | H : negb (_ =? _) = false |- _ =>
          apply negb_false_iff, Z.eqb_eq in H; contradiction
      end;
  try reflexivity.

Lemma getPrices_trace (instruments : list string) :
  placeCalls (fst (getPrices configFile parseURL roundTrip unmarshalPricing instruments)) = [] ∧
  configReads (fst (getPrices configFile parseURL roundTrip unmarshalPricing instruments)) = 1%nat.
Proof.
  unfold getPrices, getCreds, send, emit, halt, mbind, M_bind, mret, M_ret.
  run_cases; auto.
Qed.

Lemma placeMarketOrder_trace (units : Z) (instrument : string) (pb : float32) :
  placeCalls (fst (placeMarketOrder configFile parseURL roundTrip unmarshalOrder
                     units instrument pb)) = [(units, instrument, pb)] ∧
  configReads (fst (placeMarketOrder configFile parseURL roundTrip unmarshalOrder
                      units instrument pb)) = 1%nat.
Proof.
  unfold placeMarketOrder, getCreds, send, emit, halt, mbind, M_bind, mret, M_ret.
  run_cases; auto.
Qed.

Lemma getPrices_bodies (instruments : list string) :
  Forall (λ b, b = None)
    (httpBodies (fst (getPrices configFile parseURL roundTrip unmarshalPricing instruments))).
Proof.
  unfold getPrices, getCreds, send, emit, halt, mbind, M_bind, mret, M_ret.
  run_cases; repeat constructor.
Qed.

Lemma placeMarketOrder_bodies (units : Z) (instrument : string) (pb : float32) :
  Forall (λ b, b = Some (mkOrderRequest units instrument pb))
    (httpBodies (fst (placeMarketOrder configFile parseURL roundTrip unmarshalOrder
                        units instrument pb))).
Proof.
  unfold placeMarketOrder, getCreds, send, emit, halt, mbind, M_bind, mret, M_ret.
  run_cases; repeat constructor.
Qed.

(** Case analysis on a run of the driver: the price fetch, the first
    record, its tradeable flag and the order placement. *)
Ltac entry_cases :=
  unfold EntryPoint;
  let t := fresh "t" in let G := fresh "G" in
  let pr := fresh "pr" in let e := fresh "e" in
  destruct (getPrices configFile parseURL roundTrip unmarshalPricing driverInstruments)
    as [t [[pr [e|]]|]] eqn:G;
  cbn -[placeMarketOrder getPrices];
  try (destruct pr as [pr|]; cbn -[placeMarketOrder getPrices];
       try (let p0 := fresh "p0" in let ps := fresh "ps" in
            destruct (Prices pr) as [|p0 ps]; cbn -[placeMarketOrder getPrices];
            try (destruct (Tradeable p0); cbn -[placeMarketOrder getPrices];
                 try (let t2 := fresh "t2" in let P := fresh "P" in
                      let o := fresh "o" in let e2 := fresh "e2" in
                      destruct (placeMarketOrder configFile parseURL roundTrip unmarshalOrder
                                  1 "GBP_USD" (Ask p0)) as [t2 [[o [e2|]]|]] eqn:P;
                      cbn -[placeMarketOrder getPrices])))).

Lemma EntryPoint_shape :
  let t := fst (EntryPoint configFile parseURL roundTrip unmarshalPricing unmarshalOrder) in
  placeCalls t =
    match snd (getPrices configFile parseURL roundTrip unmarshalPricing driverInstruments) with
    | Some (Some pr, None) =>
        match Prices pr with
        | p0 :: _ => if Tradeable p0 then [(1, "GBP_USD", Ask p0)] else []
        | [] => []
        end
    | _ => []
    end ∧
  configReads t = S (length (placeCalls t)) ∧
  Forall (λ b, b = None ∨ ∃ pb, b = Some (mkOrderRequest 1 "GBP_USD" pb)) (httpBodies t).
Proof.
  pose proof (getPrices_trace driverInstruments) as [HG1 HG2].
  pose proof (getPrices_bodies driverInstruments) as HG3.
  pose proof (placeMarketOrder_trace) as HP.
  pose proof (placeMarketOrder_bodies) as HPB.
  entry_cases;
  rewrite ?G in HG1, HG2, HG3; cbn in HG1, HG2, HG3;
  rewrite ?placeCalls_app, ?configReads_app, ?httpBodies_app; cbn;
  rewrite ?HG1, ?HG2;
  try (destruct (HP 1 "GBP_USD" (Ask p0)) as [HP1 HP2];
       pose proof (HPB 1 "GBP_USD" (Ask p0)) as HP3;
       rewrite P in HP1, HP2, HP3; cbn in HP1, HP2, HP3;
       rewrite ?placeCalls_app, ?configReads_app, ?httpBodies_app, HP1, HP2; cbn);
  (split; [reflexivity|]); (split; [cbn; lia|]).
  all: repeat first [ apply Forall_app; split | apply Forall_nil | apply Forall_cons; split ].
  all: try (eapply Forall_impl; [exact HG3|]; cbn; intros b Hb; left; exact Hb).
  all: try (eapply Forall_impl; [exact HP3|]; cbn; intros b Hb; right; eexists; exact Hb).
  all: exact I.
Qed.

(** C3: the order body sent by [placeMarketOrder] holds the unit count
    formatted with [%d] (so [1] gives "1"), the price bound formatted with
    [%.5f] (so the float32 nearest to 1.2 gives "1.20000"), the instrument
    unchanged, and the constants FOK, MARKET and DEFAULT. *)
Theorem placeMarketOrder_order_body (units : Z) (instrument : string)
    (pb : float32) (req : Request) :
  In (EvHttp req) (fst (placeMarketOrder configFile parseURL roundTrip unmarshalOrder
                          units instrument pb)) →
  ∃ o : MarketOrder, Body req = Some {| Order := o |} ∧
    Units o = fmt_d units ∧ (units = 1 → Units o = "1") ∧
    PriceBound o = fmt_f5 pb ∧ (pb = round_f32 6 5 → PriceBound o = "1.20000") ∧
    OrderInstrument o = instrument ∧ TimeInForce o = "FOK" ∧
    Type_ o = "MARKET" ∧ PositionFill o = "DEFAULT".
Proof.
  unfold placeMarketOrder, getCreds, send, emit, halt, mbind, M_bind, mret, M_ret.
  run_cases; intros H; repeat destruct H as [H|H]; try discriminate; try contradiction;
    injection H as <-; eexists; (split; [reflexivity|]);
    repeat split; intros ->; vm_compute; reflexivity.
Qed.

(** C5: when the price fetch succeeds and the first record is tradeable,
    the driver invokes [placeMarketOrder] exactly once, with unit count 1
    and the first record's ask price as the bound. *)
Theorem EntryPoint_places_one_order (resp : PricingResponse) (p0 : Price) (ps : list Price) :
  snd (getPrices configFile parseURL roundTrip unmarshalPricing driverInstruments)
    = Some (Some resp, None) →
  Prices resp = p0 :: ps → Tradeable p0 = true →
  placeCalls (fst (EntryPoint configFile parseURL roundTrip unmarshalPricing unmarshalOrder))
    = [(1, "GBP_USD", Ask p0)].
Proof.
  intros Hg Hp Ht. unfold EntryPoint. unfold GoRet in Hg.
  rewrite bind_fst, Hg, placeCalls_app, (proj1 (getPrices_trace _)).
  cbn -[placeMarketOrder]. rewrite Hp, Ht.
  match goal with |- context [placeMarketOrder ?a ?b ?c ?d ?u ?i ?pb ≫= ?f] =>
    remember (placeMarketOrder a b c d u i pb ≫= f) as m eqn:Em end.
  destruct m as [t2 r2]. cbn.
  change t2 with (fst (t2, r2)). rewrite Em, bind_fst, placeCalls_app.
  pose proof (proj1 (placeMarketOrder_trace 1 "GBP_USD" (Ask p0))) as HP.
  unfold GoRet in HP. rewrite HP.
  match goal with |- context [match ?x with Some _ => _ | None => _ end] =>
    destruct x as [[o [e|]]|] end; reflexivity.
Qed.

(** C6: when the first record is not tradeable, the driver never invokes
    [placeMarketOrder]: after the price fetch it prints the success line,
    dumps the prices, prints the not-tradeable message and returns. *)
Theorem EntryPoint_not_tradeable (resp : PricingResponse) (p0 : Price) (ps : list Price) :
  snd (getPrices configFile parseURL roundTrip unmarshalPricing driverInstruments)
    = Some (Some resp, None) →
  Prices resp = p0 :: ps → Tradeable p0 = false →
  EntryPoint configFile parseURL roundTrip unmarshalPricing unmarshalOrder =
    (fst (getPrices configFile parseURL roundTrip unmarshalPricing driverInstruments) ++
       [EvStdout "Prices retrieved successfully."; EvDumpPrices (Some resp);
        EvStdout msgNotTradeable], Some ()) ∧
  placeCalls (fst (EntryPoint configFile parseURL roundTrip unmarshalPricing unmarshalOrder))
    = [].
Proof.
  intros Hg Hp Ht.
  assert (E : EntryPoint configFile parseURL roundTrip unmarshalPricing unmarshalOrder =
    (fst (getPrices configFile parseURL roundTrip unmarshalPricing driverInstruments) ++
       [EvStdout "Prices retrieved successfully."; EvDumpPrices (Some resp);
        EvStdout msgNotTradeable], Some ())).
  { unfold EntryPoint.
    destruct (getPrices configFile parseURL roundTrip unmarshalPricing driverInstruments)
      as [t r] eqn:G.
    cbn in Hg. subst r. cbn -[placeMarketOrder getPrices]. rewrite Hp, Ht. reflexivity. }
  split; [exact E|]. rewrite E. cbn [fst].
  rewrite placeCalls_app, (proj1 (getPrices_trace _)). reflexivity.
Qed.

Lemma getPrices_ok_trace (instruments : list string) (r : option PricingResponse) :
  snd (getPrices configFile parseURL roundTrip unmarshalPricing instruments) = Some (r, None) →
  ∃ g, fst (getPrices configFile parseURL roundTrip unmarshalPricing instruments)
         = [EvOpenConfig; EvHttp g] ∧ Method g = "GET".
Proof.
  unfold getPrices, getCreds, send, emit, halt, mbind, M_bind, mret, M_ret.
  run_cases; intros H; cbn in H; try discriminate; eexists; split; reflexivity.
Qed.

Lemma placeMarketOrder_opens_first (units : Z) (instrument : string) (pb : float32) :
  ∃ rest, fst (placeMarketOrder configFile parseURL roundTrip unmarshalOrder
                 units instrument pb)
            = EvCallPlaceMarketOrder units instrument pb :: EvOpenConfig :: rest ∧
          configReads rest = 0%nat.
Proof.
  unfold placeMarketOrder, getCreds, send, emit, halt, mbind, M_bind, mret, M_ret.
  run_cases; eexists; split; reflexivity.
Qed.

(** C7 (amended): [getPrices] and [placeMarketOrder] each open
    [config.json] once per call, so a run of the driver reads it once, and
    a second time (after the pricing round trip) when it invokes
    [placeMarketOrder]: a run that places an order opens the file, sends
    the pricing GET, and opens the file again only inside the
    [placeMarketOrder] call, after it. *)
Theorem config_read_per_call :
  (∀ instruments : list string,
     configReads (fst (getPrices configFile parseURL roundTrip unmarshalPricing
                         instruments)) = 1%nat) ∧
  (∀ (units : Z) (instrument : string) (pb : float32),
     configReads (fst (placeMarketOrder configFile parseURL roundTrip unmarshalOrder
                         units instrument pb)) = 1%nat) ∧
  configReads (fst (EntryPoint configFile parseURL roundTrip unmarshalPricing unmarshalOrder))
    = S (length (placeCalls
         (fst (EntryPoint configFile parseURL roundTrip unmarshalPricing unmarshalOrder)))) ∧
  (length (placeCalls
     (fst (EntryPoint configFile parseURL roundTrip unmarshalPricing unmarshalOrder))) ≤ 1)%nat ∧
  (placeCalls (fst (EntryPoint configFile parseURL roundTrip unmarshalPricing unmarshalOrder))
     ≠ [] →
   ∃ (g : Request) (mid : list Event) (pb : float32) (rest : list Event),
     fst (EntryPoint configFile parseURL roundTrip unmarshalPricing unmarshalOrder)
       = EvOpenConfig :: EvHttp g ::
           mid ++ EvCallPlaceMarketOrder 1 "GBP_USD" pb :: EvOpenConfig :: rest ∧
     Method g = "GET" ∧ configReads mid = 0%nat ∧ configReads rest = 0%nat).
Proof.
  destruct EntryPoint_shape as [H1 [H2 _]].
  split; [intros; apply getPrices_trace|].
  split; [intros; apply placeMarketOrder_trace|].
  split; [exact H2|].
  split; [rewrite H1; repeat (case_match; cbn; try lia)|].
  clear H1 H2. intros Hpc.
  pose proof (proj1 (getPrices_trace driverInstruments)) as HG1.
  pose proof (getPrices_ok_trace driverInstruments) as HO.
  revert Hpc. entry_cases; intros Hpc.
  all: rewrite ?G in HG1, HO; cbn in HG1, HO.
  all: try (rewrite ?placeCalls_app, HG1 in Hpc; cbn in Hpc; contradiction).
  all: destruct (HO _ eq_refl) as [g [Ht Hm]]; subst t.
  all: destruct (placeMarketOrder_opens_first 1 "GBP_USD" (Ask p0)) as [rest [Hr Hc]];
       rewrite P in Hr; cbn in Hr; subst t2.
  all: eexists g, [_; _], (Ask p0), _; split; [reflexivity|].
  all: split; [exact Hm | split; [reflexivity|]];
       rewrite ?configReads_app, Hc; reflexivity.
Qed.

(** C8: every order the driver places is for the constant instrument
    GBP_USD with unit count 1, whatever the pricing reply holds: only the
    first record's tradeable flag and ask price are used; every request
    body the driver sends names GBP_USD. *)
Theorem EntryPoint_order_instrument (u : Z) (i : string) (pb : float32) :
  In (u, i, pb) (placeCalls
    (fst (EntryPoint configFile parseURL roundTrip unmarshalPricing unmarshalOrder))) →
  i = "GBP_USD" ∧ u = 1 ∧
  (∃ resp p0 ps,
     snd (getPrices configFile parseURL roundTrip unmarshalPricing driverInstruments)
       = Some (Some resp, None) ∧
     Prices resp = p0 :: ps ∧ Tradeable p0 = true ∧ pb = Ask p0) ∧
  Forall (λ b, ∀ o, b = Some o → OrderInstrument (Order o) = "GBP_USD")
    (httpBodies (fst (EntryPoint configFile parseURL roundTrip unmarshalPricing unmarshalOrder))).
Proof.
  destruct EntryPoint_shape as [H1 [_ H3]]. intros HIn.
  split; [|split; [|split]].
  4: { eapply Forall_impl; [exact H3|]. cbn.
       intros b [->|[pb' ->]] o Ho; [discriminate|]. injection Ho as <-. reflexivity. }
  all: rewrite H1 in HIn; revert HIn.
  all: repeat (case_match; cbn; try contradiction).
  all: intros [HIn|[]]; injection HIn as <- <- <-; eauto 10.
Qed.

(** C9: [getPrices] does not check its instruments: for every list, also
    the empty one or one holding empty strings, once the credentials load
    and the account URL parses (both independent of the list), the first
    thing after reading the credentials is the GET request, whose
    [instruments] parameter is the comma-join of the list. *)
Theorem getPrices_sends_joined_instruments (instruments : list string)
    (creds : Credentials) (q0 : list (string * list string)) :
  configFile = Ok creds →
  parseURL (pricingURL creds) = Ok q0 →
  values_lookup q0 "instruments" = None →
  ∃ req : Request,
    fst (getPrices configFile parseURL roundTrip unmarshalPricing instruments)
      = [EvOpenConfig; EvHttp req] ∧
    Method req = "GET" ∧
    values_lookup (Query req) "instruments" = Some [join "," instruments].
Proof.
  intros Hc Hu Hq. exists (pricingRequest creds q0 instruments).
  split; [|split; [reflexivity | apply values_lookup_add; exact Hq]].
  unfold getPrices, getCreds, send, emit, halt, mbind, M_bind, mret, M_ret.
  rewrite Hc. cbn -[pricingURL pricingRequest]. rewrite Hu.
  cbn -[pricingURL pricingRequest]. run_cases; reflexivity.
Qed.

(** C4 (amended): once the request completes and its body is read in
    full, a pricing status other than 200 makes [getPrices] return a nil
    response and an error starting with the decimal status code, and an
    order status other than 201 makes [placeMarketOrder] return a nil
    response and the error "unexpected status code: <code>, body: <body>";
    when reading the body fails, the read error is returned instead. *)
Theorem status_errors_after_body_read :
  (∀ instruments req resp body,
     In (EvHttp req) (fst (getPrices configFile parseURL roundTrip unmarshalPricing instruments)) →
     roundTrip req = Ok resp → RespBody resp = Ok body → StatusCode resp ≠ 200 →
     snd (getPrices configFile parseURL roundTrip unmarshalPricing instruments)
       = Some (None, Some (statusErrPrices (StatusCode resp))) ∧
     contains (fmt_d (StatusCode resp)) (statusErrPrices (StatusCode resp))) ∧
  (∀ instruments req resp e,
     In (EvHttp req) (fst (getPrices configFile parseURL roundTrip unmarshalPricing instruments)) →
     roundTrip req = Ok resp → RespBody resp = Err e →
     snd (getPrices configFile parseURL roundTrip unmarshalPricing instruments)
       = Some (None, Some e)) ∧
  (∀ units instrument pb req resp body,
     In (EvHttp req) (fst (placeMarketOrder configFile parseURL roundTrip unmarshalOrder
                             units instrument pb)) →
     roundTrip req = Ok resp → RespBody resp = Ok body → StatusCode resp ≠ 201 →
     snd (placeMarketOrder configFile parseURL roundTrip unmarshalOrder units instrument pb)
       = Some (None, Some (statusErrOrder (StatusCode resp) body)) ∧
     contains (fmt_d (StatusCode resp)) (statusErrOrder (StatusCode resp) body)) ∧
  (∀ units instrument pb req resp e,
     In (EvHttp req) (fst (placeMarketOrder configFile parseURL roundTrip unmarshalOrder
                             units instrument pb)) →
     roundTrip req = Ok resp → RespBody resp = Err e →
     snd (placeMarketOrder configFile parseURL roundTrip unmarshalOrder units instrument pb)
       = Some (None, Some e)).
Proof.
  split; [|split; [|split]].
  - intros instruments req resp body HIn Hrt Hb Hs. revert HIn.
    unfold getPrices, getCreds, send, emit, halt, mbind, M_bind, mret, M_ret.
    run_cases; intros HIn; repeat destruct HIn as [HIn|HIn]; try discriminate;
      try contradiction; injection HIn as <-; status_finish.
    split; [reflexivity | apply contains_prefix].
  - intros instruments req resp e HIn Hrt Hb. revert HIn.
    unfold getPrices, getCreds, send, emit, halt, mbind, M_bind, mret, M_ret.
    run_cases; intros HIn; repeat destruct HIn as [HIn|HIn]; try discriminate;
      try contradiction; injection HIn as <-; status_finish.
  - intros units instrument pb req resp body HIn Hrt Hb Hs. revert HIn.
    unfold placeMarketOrder, getCreds, send, emit, halt, mbind, M_bind, mret, M_ret.
    run_cases; intros HIn; repeat destruct HIn as [HIn|HIn]; try discriminate;
      try contradiction; injection HIn as <-; status_finish.
    split; [reflexivity|]. exists "unexpected status code: "%string, (", body: " ++ body)%string.
    reflexivity.
  - intros units instrument pb req resp e HIn Hrt Hb. revert HIn.
    unfold placeMarketOrder, getCreds, send, emit, halt, mbind, M_bind, mret, M_ret.
    run_cases; intros HIn; repeat destruct HIn as [HIn|HIn]; try discriminate;
      try contradiction; injection HIn as <-; status_finish.
Qed.

Lemma getPrices_one_of (instruments : list string) (r : GoRet PricingResponse) :
  snd (getPrices configFile parseURL roundTrip unmarshalPricing instruments) = Some r →
  one_of r.
Proof.
  unfold getPrices, getCreds, send, emit, halt, mbind, M_bind, mret, M_ret.
  run_cases; intros H; cbn in H; try discriminate; injection H as <-; try exact I.
  all: match goal with E : parseRawResponse ?raw = _ |- _ =>
         pose proof (parseRawResponse_one_of raw) as Hr; rewrite E in Hr; exact Hr end.
Qed.

Lemma placeMarketOrder_one_of (units : Z) (instrument : string) (pb : float32)
    (r : GoRet OrderResponse) :
  snd (placeMarketOrder configFile parseURL roundTrip unmarshalOrder units instrument pb)
    = Some r → one_of r.
Proof.
  unfold placeMarketOrder, getCreds, send, emit, halt, mbind, M_bind, mret, M_ret.
  run_cases; intros H; cbn in H; try discriminate; injection H as <-; exact I.
Qed.

Lemma getPrices_no_panic (instruments : list string) (s : string) :
  ¬ In (EvPanic s) (fst (getPrices configFile parseURL roundTrip unmarshalPricing instruments)).
Proof.
  unfold getPrices, getCreds, send, emit, halt, mbind, M_bind, mret, M_ret.
  run_cases; intros HIn; repeat destruct HIn as [HIn|HIn]; try discriminate; contradiction.
Qed.

Lemma placeMarketOrder_no_panic (units : Z) (instrument : string) (pb : float32) (s : string) :
  ¬ In (EvPanic s) (fst (placeMarketOrder configFile parseURL roundTrip unmarshalOrder
                           units instrument pb)).
Proof.
  unfold placeMarketOrder, getCreds, send, emit, halt, mbind, M_bind, mret, M_ret.
  run_cases; intros HIn; repeat destruct HIn as [HIn|HIn]; try discriminate; contradiction.
Qed.

Lemma getPrices_request_methods (instruments : list string) :
  match httpRequests (fst (getPrices configFile parseURL roundTrip unmarshalPricing
                             instruments)) with
  | [] => ∀ r, snd (getPrices configFile parseURL roundTrip unmarshalPricing instruments)
                 ≠ Some (r, None)
  | [g] => Method g = "GET"
  | _ => False
  end.
Proof.
  unfold getPrices, getCreds, send, emit, halt, mbind, M_bind, mret, M_ret.
  run_cases; try reflexivity; discriminate.
Qed.

Lemma placeMarketOrder_request_methods (units : Z) (instrument : string) (pb : float32) :
  match httpRequests (fst (placeMarketOrder configFile parseURL roundTrip unmarshalOrder
                             units instrument pb)) with
  | [] => True
  | [p] => Method p = "POST"
  | _ => False
  end.
Proof.
  unfold placeMarketOrder, getCreds, send, emit, halt, mbind, M_bind, mret, M_ret.
  run_cases; reflexivity.
Qed.

(** X: [parseRawResponse], [getPrices] and [placeMarketOrder] never return
    both a response and an error, nor neither: when they return, exactly
    one of the two is set. *)
Theorem go_returns_exactly_one :
  (∀ raw : RawPricingResponse, one_of (parseRawResponse raw)) ∧
  (∀ (instruments : list string) (r : GoRet PricingResponse),
     snd (getPrices configFile parseURL roundTrip unmarshalPricing instruments) = Some r →
     one_of r) ∧
  (∀ (units : Z) (instrument : string) (pb : float32) (r : GoRet OrderResponse),
     snd (placeMarketOrder configFile parseURL roundTrip unmarshalOrder units instrument pb)
       = Some r → one_of r).
Proof.
  split; [exact parseRawResponse_one_of|].
  split; [exact getPrices_one_of | exact placeMarketOrder_one_of].
Qed.

(** X: [getPrices] returns prices only after loading the credentials,
    parsing the account URL, sending the pricing GET request once, getting
    a 200 reply whose body reads and decodes, and parsing the decoded
    records without error; the prices returned are those of the parse. *)
Theorem getPrices_success_sound (instruments : list string) (resp : PricingResponse) :
  snd (getPrices configFile parseURL roundTrip unmarshalPricing instruments)
    = Some (Some resp, None) →
  ∃ creds q0 reply body raw,
    configFile = Ok creds ∧ parseURL (pricingURL creds) = Ok q0 ∧
    fst (getPrices configFile parseURL roundTrip unmarshalPricing instruments)
      = [EvOpenConfig; EvHttp (pricingRequest creds q0 instruments)] ∧
    roundTrip (pricingRequest creds q0 instruments) = Ok reply ∧
    StatusCode reply = 200 ∧ RespBody reply = Ok body ∧
    unmarshalPricing body = Ok raw ∧ parseRawResponse raw = (Some resp, None).
Proof.
  unfold getPrices, getCreds, send, emit, halt, mbind, M_bind, mret, M_ret.
  run_cases; intros H; cbn in H; try discriminate.
  injection H as ->.
  match goal with Hb : negb (_ =? _) = false |- _ => apply negb_false_iff, Z.eqb_eq in Hb end.
  do 5 eexists; repeat split; eassumption || reflexivity.
Qed.

(** X: [placeMarketOrder] returns an order response only after loading the
    credentials, parsing the account URL, sending the order POST request
    once, getting a 201 reply whose body reads, and decoding that body; the
    decoded body is returned as it is. *)
Theorem placeMarketOrder_success_sound (units : Z) (instrument : string) (pb : float32)
    (o : OrderResponse) :
  snd (placeMarketOrder configFile parseURL roundTrip unmarshalOrder units instrument pb)
    = Some (Some o, None) →
  ∃ creds q0 reply body,
    configFile = Ok creds ∧ parseURL (orderURL creds) = Ok q0 ∧
    fst (placeMarketOrder configFile parseURL roundTrip unmarshalOrder units instrument pb)
      = [EvCallPlaceMarketOrder units instrument pb; EvOpenConfig;
         EvHttp (orderHttpRequest creds q0 (mkOrderRequest units instrument pb))] ∧
    roundTrip (orderHttpRequest creds q0 (mkOrderRequest units instrument pb)) = Ok reply ∧
    StatusCode reply = 201 ∧ RespBody reply = Ok body ∧ unmarshalOrder body = Ok o.
Proof.
  unfold placeMarketOrder, getCreds, send, emit, halt, mbind, M_bind, mret, M_ret.
  run_cases; intros H; cbn in H; try discriminate.
  injection H as ->.
  match goal with Hb : negb (_ =? _) = false |- _ => apply negb_false_iff, Z.eqb_eq in Hb end.
  do 4 eexists; repeat split; eassumption || reflexivity.
Qed.

(** X: [getPrices] sends at most one HTTP request, and only once the
    credentials have loaded and the account URL has parsed: a GET to the
    pricing URL of the account, with the bearer token as its only header
    and no body. *)
Theorem getPrices_request_shape (instruments : list string) :
  let reqs := httpRequests (fst (getPrices configFile parseURL roundTrip unmarshalPricing
                                   instruments)) in
  (length reqs ≤ 1)%nat ∧
  Forall (λ req, ∃ creds q0,
            configFile = Ok creds ∧ parseURL (pricingURL creds) = Ok q0 ∧
            Method req = "GET" ∧ URL req = pricingURL creds ∧
            Header req = [("Authorization", "Bearer " ++ BearerToken creds)%string] ∧
            Body req = None) reqs.
Proof.
  unfold getPrices, getCreds, send, emit, halt, mbind, M_bind, mret, M_ret.
  run_cases; cbn; (split; [lia|]);
    first [ constructor; [do 2 eexists; repeat split; first [reflexivity | eassumption]
                         | constructor]
          | constructor ].
Qed.

(** X: [placeMarketOrder] sends at most one HTTP request, and only once the
    credentials have loaded and the account URL has parsed: a POST to the
    orders URL of the account, with a JSON content type, the bearer token,
    and the order built from its arguments as body. *)
Theorem placeMarketOrder_request_shape (units : Z) (instrument : string) (pb : float32) :
  let reqs := httpRequests (fst (placeMarketOrder configFile parseURL roundTrip unmarshalOrder
                                   units instrument pb)) in
  (length reqs ≤ 1)%nat ∧
  Forall (λ req, ∃ creds q0,
            configFile = Ok creds ∧ parseURL (orderURL creds) = Ok q0 ∧
            Method req = "POST" ∧ URL req = orderURL creds ∧
            Header req = [("Content-Type", "application/json");
                          ("Authorization", "Bearer " ++ BearerToken creds)%string] ∧
            Body req = Some (mkOrderRequest units instrument pb)) reqs.
Proof.
  unfold placeMarketOrder, getCreds, send, emit, halt, mbind, M_bind, mret, M_ret.
  run_cases; cbn; (split; [lia|]);
    first [ constructor; [do 2 eexists; repeat split; first [reflexivity | eassumption]
                         | constructor]
          | constructor ].
Qed.

(** X: when [config.json] cannot be opened or decoded, [getPrices],
    [placeMarketOrder] and the driver stop the process with the error,
    having sent no HTTP request. *)
Theorem config_error_is_fatal (e : string) :
  configFile = Err e →
  (∀ instruments : list string,
     getPrices configFile parseURL roundTrip unmarshalPricing instruments
       = ([EvOpenConfig; EvFatal e], None)) ∧
  (∀ (units : Z) (instrument : string) (pb : float32),
     placeMarketOrder configFile parseURL roundTrip unmarshalOrder units instrument pb
       = ([EvCallPlaceMarketOrder units instrument pb; EvOpenConfig; EvFatal e], None)) ∧
  EntryPoint configFile parseURL roundTrip unmarshalPricing unmarshalOrder
    = ([EvOpenConfig; EvFatal e], None).
Proof.
  intros Hc.
  unfold EntryPoint, getPrices, placeMarketOrder, getCreds, send, emit, halt,
    mbind, M_bind, mret, M_ret.
  rewrite Hc. repeat split; reflexivity.
Qed.

(** X: when [getPrices] returns an error, the driver stops the process with
    "Error retrieving prices: " followed by the error, right after the
    price fetch. *)
Theorem EntryPoint_fatal_on_price_error (r : option PricingResponse) (e : string) :
  snd (getPrices configFile parseURL roundTrip unmarshalPricing driverInstruments)
    = Some (r, Some e) →
  EntryPoint configFile parseURL roundTrip unmarshalPricing unmarshalOrder =
    (fst (getPrices configFile parseURL roundTrip unmarshalPricing driverInstruments) ++
       [EvFatal ("Error retrieving prices: " ++ e)%string], None).
Proof.
  intros Hg. unfold EntryPoint.
  destruct (getPrices configFile parseURL roundTrip unmarshalPricing driverInstruments)
    as [t r'] eqn:G.
  cbn in Hg. subst r'. reflexivity.
Qed.

(** X: an error from [placeMarketOrder] is not fatal: the driver logs
    "Error placing market order: " followed by the error and returns
    normally. *)
Theorem EntryPoint_logs_order_error (resp : PricingResponse) (p0 : Price) (ps : list Price)
    (o : option OrderResponse) (e : string) :
  snd (getPrices configFile parseURL roundTrip unmarshalPricing driverInstruments)
    = Some (Some resp, None) →
  Prices resp = p0 :: ps → Tradeable p0 = true →
  snd (placeMarketOrder configFile parseURL roundTrip unmarshalOrder 1 "GBP_USD" (Ask p0))
    = Some (o, Some e) →
  EntryPoint configFile parseURL roundTrip unmarshalPricing unmarshalOrder =
    (fst (getPrices configFile parseURL roundTrip unmarshalPricing driverInstruments) ++
       [EvStdout "Prices retrieved successfully."; EvDumpPrices (Some resp)] ++
       fst (placeMarketOrder configFile parseURL roundTrip unmarshalOrder 1 "GBP_USD" (Ask p0))
       ++ [EvLog ("Error placing market order: " ++ e)%string], Some ()).
Proof.
  intros Hg Hp Ht Ho. unfold EntryPoint.
  destruct (getPrices configFile parseURL roundTrip unmarshalPricing driverInstruments)
    as [t r] eqn:G.
  cbn in Hg. subst r. cbn -[placeMarketOrder getPrices]. rewrite Hp, Ht.
  destruct (placeMarketOrder configFile parseURL roundTrip unmarshalOrder 1 "GBP_USD" (Ask p0))
    as [t2 r2] eqn:P.
  cbn in Ho. subst r2. cbn. reflexivity.
Qed.

(** X: when the order goes through, the driver prints
    "Market order placed successfully.", dumps the order response and
    returns normally. *)
Theorem EntryPoint_reports_order (resp : PricingResponse) (p0 : Price) (ps : list Price)
    (o : option OrderResponse) :
  snd (getPrices configFile parseURL roundTrip unmarshalPricing driverInstruments)
    = Some (Some resp, None) →
  Prices resp = p0 :: ps → Tradeable p0 = true →
  snd (placeMarketOrder configFile parseURL roundTrip unmarshalOrder 1 "GBP_USD" (Ask p0))
    = Some (o, None) →
  EntryPoint configFile parseURL roundTrip unmarshalPricing unmarshalOrder =
    (fst (getPrices configFile parseURL roundTrip unmarshalPricing driverInstruments) ++
       [EvStdout "Prices retrieved successfully."; EvDumpPrices (Some resp)] ++
       fst (placeMarketOrder configFile parseURL roundTrip unmarshalOrder 1 "GBP_USD" (Ask p0))
       ++ [EvStdout "Market order placed successfully."; EvDumpOrder o], Some ()).
Proof.
  intros Hg Hp Ht Ho. unfold EntryPoint.
  destruct (getPrices configFile parseURL roundTrip unmarshalPricing driverInstruments)
    as [t r] eqn:G.
  cbn in Hg. subst r. cbn -[placeMarketOrder getPrices]. rewrite Hp, Ht.
  destruct (placeMarketOrder configFile parseURL roundTrip unmarshalOrder 1 "GBP_USD" (Ask p0))
    as [t2 r2] eqn:P.
  cbn in Ho. subst r2. cbn. reflexivity.
Qed.

(** X: when the pricing reply parses to an empty list of prices, the driver
    prints the success line, dumps the empty response and then panics
    indexing the first price. *)
Theorem EntryPoint_empty_prices_panics (resp : PricingResponse) :
  snd (getPrices configFile parseURL roundTrip unmarshalPricing driverInstruments)
    = Some (Some resp, None) →
  Prices resp = [] →
  EntryPoint configFile parseURL roundTrip unmarshalPricing unmarshalOrder =
    (fst (getPrices configFile parseURL roundTrip unmarshalPricing driverInstruments) ++
       [EvStdout "Prices retrieved successfully."; EvDumpPrices (Some resp);
        EvPanic "index out of range [0] with length 0"], None).
Proof.
  intros Hg Hp. unfold EntryPoint.
  destruct (getPrices configFile parseURL roundTrip unmarshalPricing driverInstruments)
    as [t r] eqn:G.
  cbn in Hg. subst r. cbn -[placeMarketOrder getPrices]. rewrite Hp. reflexivity.
Qed.

(** X: the only panic the driver can reach is the index panic on an empty
    price list; in particular the nil-pointer dereference of a missing
    response never happens, since a fetch without error always returns a
    response. *)
Theorem EntryPoint_panics_only_on_empty_prices (s : string) :
  In (EvPanic s) (fst (EntryPoint configFile parseURL roundTrip unmarshalPricing
                         unmarshalOrder)) →
  s = "index out of range [0] with length 0" ∧
  ∃ resp, snd (getPrices configFile parseURL roundTrip unmarshalPricing driverInstruments)
            = Some (Some resp, None) ∧ Prices resp = [].
Proof.
  intros HIn.
  enough (H : s = "index out of range [0] with length 0" ∧
    match snd (getPrices configFile parseURL roundTrip unmarshalPricing driverInstruments) with
    | Some (Some resp, None) => Prices resp = []
    | _ => False
    end).
  { destruct H as [Hs H]. split; [exact Hs|].
    destruct (snd (getPrices _ _ _ _ _)) as [[[resp|] [e|]]|]; try contradiction.
    exists resp. split; [reflexivity | exact H]. }
  pose proof (getPrices_no_panic driverInstruments s) as N1.
  pose proof (getPrices_one_of driverInstruments) as O.
  pose proof (placeMarketOrder_no_panic 1 "GBP_USD") as N2.
  revert HIn. entry_cases; intros HIn.
  all: rewrite ?G in N1, O; cbn in N1, O.
  all: try (specialize (N2 (Ask p0) s); rewrite P in N2; cbn in N2).
  all: repeat match type of HIn with
         | In _ (_ ++ _) => apply in_app_iff in HIn
         | In _ (_ :: _) => cbn in HIn
         | _ ∨ _ => destruct HIn as [HIn|HIn]
         end; try contradiction; try discriminate.
  all: try (specialize (O _ eq_refl); contradiction).
  all: try (injection HIn as <-; split; reflexivity).
  all: contradiction.
Qed.

(** X: a run of the driver sends at most two HTTP requests: at most one
    pricing GET, and after it at most one order POST. *)
Theorem EntryPoint_request_methods :
  match httpRequests (fst (EntryPoint configFile parseURL roundTrip unmarshalPricing
                             unmarshalOrder)) with
  | [] => True
  | [g] => Method g = "GET"
  | [g; p] => Method g = "GET" ∧ Method p = "POST"
  | _ => False
  end.
Proof.
  pose proof (getPrices_request_methods driverInstruments) as H1.
  pose proof (placeMarketOrder_request_methods 1 "GBP_USD") as H2.
  entry_cases; rewrite ?G in H1; cbn in H1.
  all: try (specialize (H2 (Ask p0)); rewrite P in H2; cbn in H2).
  all: rewrite ?httpRequests_app; cbn; rewrite ?httpRequests_app; cbn.
  all: destruct (httpRequests t) as [|g [|]]; try contradiction;
    try (exfalso; eapply H1; reflexivity).
  all: try (destruct (httpRequests t2) as [|q [|]]; try contradiction).
  all: cbn; auto.
Qed.

End Runs.

(** ** Witnesses and counterexamples on concrete worlds *)

(** Membership in a concrete trace, decided by evaluation. *)
Ltac in_trace := vm_compute; repeat first [left; reflexivity | right].

Lemma placeMarketOrder_order_body_witness :
  In (EvHttp (orderHttpRequest sampleCreds [] (mkOrderRequest 1 "GBP_USD" (round_f32 6 5))))
     (fst (placeMarketOrder (Ok sampleCreds) sampleParseURL sampleRoundTrip
             (λ _, Ok sampleOrderResponse) 1 "GBP_USD" (round_f32 6 5))) ∧
  ∃ o : MarketOrder,
    Body (orderHttpRequest sampleCreds [] (mkOrderRequest 1 "GBP_USD" (round_f32 6 5)))
      = Some {| Order := o |} ∧
    Units o = fmt_d 1 ∧ (1 = 1 → Units o = "1") ∧
    PriceBound o = fmt_f5 (round_f32 6 5) ∧
    (round_f32 6 5 = round_f32 6 5 → PriceBound o = "1.20000") ∧
    OrderInstrument o = "GBP_USD" ∧ TimeInForce o = "FOK" ∧
    Type_ o = "MARKET" ∧ PositionFill o = "DEFAULT".
Proof.
  split; [in_trace|].
  apply (placeMarketOrder_order_body (Ok sampleCreds) sampleParseURL sampleRoundTrip
           (λ _, Ok sampleOrderResponse)).
  in_trace.
Defined.

Lemma EntryPoint_places_one_order_witness :
  (snd (getPrices (Ok sampleCreds) sampleParseURL sampleRoundTrip (λ _, Ok sampleRaw)
          driverInstruments) = Some (Some samplePrices, None) ∧
   Prices samplePrices = best_levels goodEntry :: [best_levels eurEntry] ∧
   Tradeable (best_levels goodEntry) = true) ∧
  placeCalls (fst (EntryPoint (Ok sampleCreds) sampleParseURL sampleRoundTrip
                     (λ _, Ok sampleRaw) (λ _, Ok sampleOrderResponse)))
    = [(1, "GBP_USD", Ask (best_levels goodEntry))].
Proof.
  split; [split; [vm_compute; reflexivity | split; reflexivity]|].
  apply (EntryPoint_places_one_order (Ok sampleCreds) sampleParseURL sampleRoundTrip
           (λ _, Ok sampleRaw) (λ _, Ok sampleOrderResponse)
           samplePrices (best_levels goodEntry) [best_levels eurEntry]);
    [vm_compute | | ]; reflexivity.
Defined.

Lemma EntryPoint_not_tradeable_witness :
  (snd (getPrices (Ok sampleCreds) sampleParseURL sampleRoundTrip (λ _, Ok sampleRawClosed)
          driverInstruments) = Some (Some samplePricesClosed, None) ∧
   Prices samplePricesClosed = best_levels closedEntry :: [best_levels eurEntry] ∧
   Tradeable (best_levels closedEntry) = false) ∧
  (EntryPoint (Ok sampleCreds) sampleParseURL sampleRoundTrip
     (λ _, Ok sampleRawClosed) (λ _, Ok sampleOrderResponse) =
   (fst (getPrices (Ok sampleCreds) sampleParseURL sampleRoundTrip (λ _, Ok sampleRawClosed)
           driverInstruments) ++
      [EvStdout "Prices retrieved successfully."; EvDumpPrices (Some samplePricesClosed);
       EvStdout msgNotTradeable], Some ()) ∧
   placeCalls (fst (EntryPoint (Ok sampleCreds) sampleParseURL sampleRoundTrip
                      (λ _, Ok sampleRawClosed) (λ _, Ok sampleOrderResponse))) = []).
Proof.
  split; [split; [vm_compute; reflexivity | split; reflexivity]|].
  apply (EntryPoint_not_tradeable (Ok sampleCreds) sampleParseURL sampleRoundTrip
           (λ _, Ok sampleRawClosed) (λ _, Ok sampleOrderResponse)
           samplePricesClosed (best_levels closedEntry) [best_levels eurEntry]);
    [vm_compute | | ]; reflexivity.
Defined.

(** C7: a run that places an order opens [config.json] twice, the second
    time after the pricing round trip. *)
Lemma config_read_once_counterexample :
  configReads (fst (EntryPoint (Ok sampleCreds) sampleParseURL sampleRoundTrip
                      (λ _, Ok sampleRaw) (λ _, Ok sampleOrderResponse))) = 2%nat ∧
  match fst (EntryPoint (Ok sampleCreds) sampleParseURL sampleRoundTrip
               (λ _, Ok sampleRaw) (λ _, Ok sampleOrderResponse)) with
  | EvOpenConfig :: EvHttp _ :: rest => configReads rest = 1%nat
  | _ => False
  end.
Proof. split; vm_compute; reflexivity. Qed.

Lemma EntryPoint_order_instrument_witness :
  In (1, "GBP_USD", Ask (best_levels eurEntry))
     (placeCalls (fst (EntryPoint (Ok sampleCreds) sampleParseURL sampleRoundTrip
                         (λ _, Ok sampleRawEUR) (λ _, Ok sampleOrderResponse)))) ∧
  ("GBP_USD" = "GBP_USD" ∧ 1 = 1 ∧
   (∃ resp p0 ps,
      snd (getPrices (Ok sampleCreds) sampleParseURL sampleRoundTrip (λ _, Ok sampleRawEUR)
             driverInstruments) = Some (Some resp, None) ∧
      Prices resp = p0 :: ps ∧ Tradeable p0 = true ∧ Ask (best_levels eurEntry) = Ask p0) ∧
   Forall (λ b, ∀ o, b = Some o → OrderInstrument (Order o) = "GBP_USD")
     (httpBodies (fst (EntryPoint (Ok sampleCreds) sampleParseURL sampleRoundTrip
                         (λ _, Ok sampleRawEUR) (λ _, Ok sampleOrderResponse))))).
Proof.
  split; [in_trace|].
  apply (EntryPoint_order_instrument (Ok sampleCreds) sampleParseURL sampleRoundTrip
           (λ _, Ok sampleRawEUR) (λ _, Ok sampleOrderResponse)).
  in_trace.
Defined.

Lemma getPrices_sends_joined_instruments_witness :
  (Ok sampleCreds = Ok sampleCreds ∧ sampleParseURL (pricingURL sampleCreds) = Ok [] ∧
   values_lookup [] "instruments" = None) ∧
  ∃ req : Request,
    fst (getPrices (Ok sampleCreds) sampleParseURL (statusRoundTrip 200)
           (λ _, Ok sampleRaw) []) = [EvOpenConfig; EvHttp req] ∧
    Method req = "GET" ∧ values_lookup (Query req) "instruments" = Some [join "," []].
Proof.
  split; [repeat split|].
  apply (getPrices_sends_joined_instruments (Ok sampleCreds) sampleParseURL
           (statusRoundTrip 200) (λ _, Ok sampleRaw) [] sampleCreds []); reflexivity.
Defined.

(** C4: a 500 reply whose body cannot be read makes [getPrices] return the
    read error, whose text does not carry the status code. *)
Lemma status_code_in_error_counterexample :
  (∃ (req : Request) (resp : Response),
     In (EvHttp req) (fst (getPrices (Ok sampleCreds) sampleParseURL (brokenRoundTrip 500)
                             (λ _, Ok sampleRaw) driverInstruments)) ∧
     brokenRoundTrip 500 req = Ok resp ∧ StatusCode resp = 500) ∧
  snd (getPrices (Ok sampleCreds) sampleParseURL (brokenRoundTrip 500)
         (λ _, Ok sampleRaw) driverInstruments) = Some (None, Some "unexpected EOF") ∧
  ¬ contains (fmt_d 500) "unexpected EOF".
Proof.
  split; [|split; [vm_compute; reflexivity|]].
  - exists (pricingRequest sampleCreds [] driverInstruments),
      {| StatusCode := 500; RespBody := Err "unexpected EOF" |}.
    split; [in_trace | split; reflexivity].
  - intros H. apply contains_containsb in H. vm_compute in H. discriminate.
Qed.

Lemma status_errors_after_body_read_witness :
  (In (EvHttp (pricingRequest sampleCreds [] driverInstruments))
      (fst (getPrices (Ok sampleCreds) sampleParseURL (statusRoundTrip 503)
              (λ _, Ok sampleRaw) driverInstruments)) ∧
   statusRoundTrip 503 (pricingRequest sampleCreds [] driverInstruments)
     = Ok {| StatusCode := 503; RespBody := Ok "{}" |} ∧
   RespBody {| StatusCode := 503; RespBody := Ok "{}" |} = Ok "{}" ∧
   StatusCode {| StatusCode := 503; RespBody := Ok "{}" |} ≠ 200) ∧
  (snd (getPrices (Ok sampleCreds) sampleParseURL (statusRoundTrip 503)
          (λ _, Ok sampleRaw) driverInstruments)
     = Some (None, Some (statusErrPrices 503)) ∧
   contains (fmt_d 503) (statusErrPrices 503)).
Proof.
  split; [split; [in_trace | split; [reflexivity | split; [reflexivity | discriminate]]]|].
  apply (proj1 (status_errors_after_body_read (Ok sampleCreds) sampleParseURL
                  (statusRoundTrip 503) (λ _, Ok sampleRaw) (λ _, Ok sampleOrderResponse))
               driverInstruments (pricingRequest sampleCreds [] driverInstruments)
               {| StatusCode := 503; RespBody := Ok "{}" |} "{}");
    [in_trace | reflexivity | reflexivity | discriminate].
Defined.

Lemma go_returns_exactly_one_witness :
  snd (getPrices (Ok sampleCreds) sampleParseURL sampleRoundTrip (λ _, Ok sampleRaw)
         driverInstruments) = Some (Some samplePrices, None) ∧
  one_of (Some samplePrices, None).
Proof.
  split; [vm_compute; reflexivity|].
  apply (proj1 (proj2 (go_returns_exactly_one (Ok sampleCreds) sampleParseURL sampleRoundTrip
                         (λ _, Ok sampleRaw) (λ _, Ok sampleOrderResponse)))
           driverInstruments).
  vm_compute; reflexivity.
Defined.

Lemma getPrices_success_sound_witness :
  snd (getPrices (Ok sampleCreds) sampleParseURL sampleRoundTrip (λ _, Ok sampleRaw)
         driverInstruments) = Some (Some samplePrices, None) ∧
  ∃ creds q0 reply body raw,
    Ok sampleCreds = Ok creds ∧ sampleParseURL (pricingURL creds) = Ok q0 ∧
    fst (getPrices (Ok sampleCreds) sampleParseURL sampleRoundTrip (λ _, Ok sampleRaw)
           driverInstruments)
      = [EvOpenConfig; EvHttp (pricingRequest creds q0 driverInstruments)] ∧
    sampleRoundTrip (pricingRequest creds q0 driverInstruments) = Ok reply ∧
    StatusCode reply = 200 ∧ RespBody reply = Ok body ∧
    (λ _ : string, Ok sampleRaw) body = Ok raw ∧
    parseRawResponse raw = (Some samplePrices, None).
Proof.
  split; [vm_compute; reflexivity|].
  apply (getPrices_success_sound (Ok sampleCreds) sampleParseURL sampleRoundTrip
           (λ _, Ok sampleRaw)).
  vm_compute; reflexivity.
Defined.

Lemma placeMarketOrder_success_sound_witness :
  snd (placeMarketOrder (Ok sampleCreds) sampleParseURL sampleRoundTrip
         (λ _, Ok sampleOrderResponse) 1 "GBP_USD" (round_f32 6 5))
    = Some (Some sampleOrderResponse, None) ∧
  ∃ creds q0 reply body,
    Ok sampleCreds = Ok creds ∧ sampleParseURL (orderURL creds) = Ok q0 ∧
    fst (placeMarketOrder (Ok sampleCreds) sampleParseURL sampleRoundTrip
           (λ _, Ok sampleOrderResponse) 1 "GBP_USD" (round_f32 6 5))
      = [EvCallPlaceMarketOrder 1 "GBP_USD" (round_f32 6 5); EvOpenConfig;
         EvHttp (orderHttpRequest creds q0 (mkOrderRequest 1 "GBP_USD" (round_f32 6 5)))] ∧
    sampleRoundTrip (orderHttpRequest creds q0 (mkOrderRequest 1 "GBP_USD" (round_f32 6 5)))
      = Ok reply ∧
    StatusCode reply = 201 ∧ RespBody reply = Ok body ∧
    (λ _ : string, Ok sampleOrderResponse) body = Ok sampleOrderResponse.
Proof.
  split; [vm_compute; reflexivity|].
  apply (placeMarketOrder_success_sound (Ok sampleCreds) sampleParseURL sampleRoundTrip
           (λ _, Ok sampleOrderResponse)).
  vm_compute; reflexivity.
Defined.

Lemma config_error_is_fatal_witness :
  (Err "open config.json: no such file or directory" : result Credentials)
    = Err "open config.json: no such file or directory" ∧
  EntryPoint (Err "open config.json: no such file or directory") sampleParseURL
    sampleRoundTrip (λ _, Ok sampleRaw) (λ _, Ok sampleOrderResponse)
    = ([EvOpenConfig; EvFatal "open config.json: no such file or directory"], None).
Proof.
  split; [reflexivity|].
  apply (config_error_is_fatal (Err "open config.json: no such file or directory")
           sampleParseURL sampleRoundTrip (λ _, Ok sampleRaw) (λ _, Ok sampleOrderResponse)
           "open config.json: no such file or directory").
  reflexivity.
Defined.

Lemma EntryPoint_fatal_on_price_error_witness :
  snd (getPrices (Ok sampleCreds) sampleParseURL (statusRoundTrip 500) (λ _, Ok sampleRaw)
         driverInstruments) = Some (None, Some (statusErrPrices 500)) ∧
  EntryPoint (Ok sampleCreds) sampleParseURL (statusRoundTrip 500) (λ _, Ok sampleRaw)
    (λ _, Ok sampleOrderResponse) =
    (fst (getPrices (Ok sampleCreds) sampleParseURL (statusRoundTrip 500) (λ _, Ok sampleRaw)
            driverInstruments) ++
       [EvFatal ("Error retrieving prices: " ++ statusErrPrices 500)%string], None).
Proof.
  split; [vm_compute; reflexivity|].
  apply (EntryPoint_fatal_on_price_error (Ok sampleCreds) sampleParseURL (statusRoundTrip 500)
           (λ _, Ok sampleRaw) (λ _, Ok sampleOrderResponse) None).
  vm_compute; reflexivity.
Defined.

Lemma EntryPoint_logs_order_error_witness :
  (snd (getPrices (Ok sampleCreds) sampleParseURL rejectingRoundTrip (λ _, Ok sampleRaw)
          driverInstruments) = Some (Some samplePrices, None) ∧
   Prices samplePrices = best_levels goodEntry :: [best_levels eurEntry] ∧
   Tradeable (best_levels goodEntry) = true ∧
   snd (placeMarketOrder (Ok sampleCreds) sampleParseURL rejectingRoundTrip
          (λ _, Ok sampleOrderResponse) 1 "GBP_USD" (Ask (best_levels goodEntry)))
     = Some (None, Some (statusErrOrder 400 "rejected"))) ∧
  EntryPoint (Ok sampleCreds) sampleParseURL rejectingRoundTrip (λ _, Ok sampleRaw)
    (λ _, Ok sampleOrderResponse) =
    (fst (getPrices (Ok sampleCreds) sampleParseURL rejectingRoundTrip (λ _, Ok sampleRaw)
            driverInstruments) ++
       [EvStdout "Prices retrieved successfully."; EvDumpPrices (Some samplePrices)] ++
       fst (placeMarketOrder (Ok sampleCreds) sampleParseURL rejectingRoundTrip
              (λ _, Ok sampleOrderResponse) 1 "GBP_USD" (Ask (best_levels goodEntry)))
       ++ [EvLog ("Error placing market order: " ++ statusErrOrder 400 "rejected")%string],
     Some ()).
Proof.
  split; [repeat split; vm_compute; reflexivity|].
  apply (EntryPoint_logs_order_error (Ok sampleCreds) sampleParseURL rejectingRoundTrip
           (λ _, Ok sampleRaw) (λ _, Ok sampleOrderResponse)
           samplePrices (best_levels goodEntry) [best_levels eurEntry] None);
    vm_compute; reflexivity.
Defined.

Lemma EntryPoint_empty_prices_panics_witness :
  (snd (getPrices (Ok sampleCreds) sampleParseURL sampleRoundTrip (λ _, Ok sampleRawEmpty)
          driverInstruments)
     = Some (Some {| Time := RawTime sampleRawEmpty; Prices := [] |}, None) ∧
   Prices {| Time := RawTime sampleRawEmpty; Prices := [] |} = []) ∧
  EntryPoint (Ok sampleCreds) sampleParseURL sampleRoundTrip (λ _, Ok sampleRawEmpty)
    (λ _, Ok sampleOrderResponse) =
    (fst (getPrices (Ok sampleCreds) sampleParseURL sampleRoundTrip (λ _, Ok sampleRawEmpty)
            driverInstruments) ++
       [EvStdout "Prices retrieved successfully.";
        EvDumpPrices (Some {| Time := RawTime sampleRawEmpty; Prices := [] |});
        EvPanic "index out of range [0] with length 0"], None).
Proof.
  split; [split; [vm_compute; reflexivity | reflexivity]|].
  apply (EntryPoint_empty_prices_panics (Ok sampleCreds) sampleParseURL sampleRoundTrip
           (λ _, Ok sampleRawEmpty) (λ _, Ok sampleOrderResponse));
    [vm_compute | ]; reflexivity.
Defined.

Lemma EntryPoint_panics_only_on_empty_prices_witness :
  In (EvPanic "index out of range [0] with length 0")
     (fst (EntryPoint (Ok sampleCreds) sampleParseURL sampleRoundTrip
             (λ _, Ok sampleRawEmpty) (λ _, Ok sampleOrderResponse))) ∧
  ("index out of range [0] with length 0" = "index out of range [0] with length 0" ∧
   ∃ resp, snd (getPrices (Ok sampleCreds) sampleParseURL sampleRoundTrip
                  (λ _, Ok sampleRawEmpty) driverInstruments)
             = Some (Some resp, None) ∧ Prices resp = []).
Proof.
  split; [in_trace|].
  apply (EntryPoint_panics_only_on_empty_prices (Ok sampleCreds) sampleParseURL
           sampleRoundTrip (λ _, Ok sampleRawEmpty) (λ _, Ok sampleOrderResponse)).
  in_trace.
Defined.

Lemma EntryPoint_reports_order_witness :
  (snd (getPrices (Ok sampleCreds) sampleParseURL sampleRoundTrip (λ _, Ok sampleRaw)
          driverInstruments) = Some (Some samplePrices, None) ∧
   Prices samplePrices = best_levels goodEntry :: [best_levels eurEntry] ∧
   Tradeable (best_levels goodEntry) = true ∧
   snd (placeMarketOrder (Ok sampleCreds) sampleParseURL sampleRoundTrip
          (λ _, Ok sampleOrderResponse) 1 "GBP_USD" (Ask (best_levels goodEntry)))
     = Some (Some sampleOrderResponse, None)) ∧
  EntryPoint (Ok sampleCreds) sampleParseURL sampleRoundTrip (λ _, Ok sampleRaw)
    (λ _, Ok sampleOrderResponse) =
    (fst (getPrices (Ok sampleCreds) sampleParseURL sampleRoundTrip (λ _, Ok sampleRaw)
            driverInstruments) ++
       [EvStdout "Prices retrieved successfully."; EvDumpPrices (Some samplePrices)] ++
       fst (placeMarketOrder (Ok sampleCreds) sampleParseURL sampleRoundTrip
              (λ _, Ok sampleOrderResponse) 1 "GBP_USD" (Ask (best_levels goodEntry)))
       ++ [EvStdout "Market order placed successfully."; EvDumpOrder (Some sampleOrderResponse)],
     Some ()).
Proof.
  split; [repeat split; vm_compute; reflexivity|].
  apply (EntryPoint_reports_order (Ok sampleCreds) sampleParseURL sampleRoundTrip
           (λ _, Ok sampleRaw) (λ _, Ok sampleOrderResponse)
           samplePrices (best_levels goodEntry) [best_levels eurEntry]);
    vm_compute; reflexivity.
Defined.

Lemma config_read_per_call_witness :
  placeCalls (fst (EntryPoint (Ok sampleCreds) sampleParseURL sampleRoundTrip
                     (λ _, Ok sampleRaw) (λ _, Ok sampleOrderResponse))) ≠ [] ∧
  ∃ (g : Request) (mid : list Event) (pb : float32) (rest : list Event),
    fst (EntryPoint (Ok sampleCreds) sampleParseURL sampleRoundTrip
           (λ _, Ok sampleRaw) (λ _, Ok sampleOrderResponse))
      = EvOpenConfig :: EvHttp g ::
          mid ++ EvCallPlaceMarketOrder 1 "GBP_USD" pb :: EvOpenConfig :: rest ∧
    Method g = "GET" ∧ configReads mid = 0%nat ∧ configReads rest = 0%nat.
Proof.
  split; [vm_compute; discriminate|].
  apply (proj2 (proj2 (proj2 (proj2
           (config_read_per_call (Ok sampleCreds) sampleParseURL sampleRoundTrip
              (λ _, Ok sampleRaw) (λ _, Ok sampleOrderResponse)))))).
  vm_compute; discriminate.
Defined.
